(** * einops: the placeholder [setup.py]

    A shallow embedding of [scripts/setup.py] and the properties of the
    metadata record it hands to [setuptools.setup].

    The script is a straight line: it evaluates the keyword arguments of one
    call to [setup], left to right; all of them are literals except
    [long_description], which is [Path("README.md").read_text()].  The
    embedding threads the interpreter's surroundings (working directory,
    locale encoding, file system, the trace of input/output operations)
    through a small state-and-exception monad.

    The two imports ([Path] from [pathlib], [setup] from [setuptools]) are
    taken to succeed; what they bind is modelled in the sections of the
    same names.  Module-level names such as [__author__] are constants.

    A [string] is a sequence of 8-bit characters.  It stands for the bytes
    of a file, and for a Python [str] through the UTF-8 encoding of the
    [str]; the literals of the script are ASCII and stand for themselves. *)

From Stdlib Require Import Ascii String NArith ZArith.
From stdpp Require Import base strings list gmap.

Local Open Scope string_scope.

(** ** Python values that occur as keyword arguments *)

Inductive value : Type :=
| VStr (s : string)
| VList (items : list string).

#[global] Instance value_eq_dec : EqDecision value.
Proof. solve_decision. Defined.

(** The keyword arguments of a call, in the order they are written. *)
Abbreviation kwargs := (list (string * value)).

Fixpoint kwarg (k : string) (kw : kwargs) : option value :=
  match kw with
  | [] => None
  | (k', v) :: rest => if decide (k = k') then Some v else kwarg k rest
  end.

Definition fields (kw : kwargs) : list string := kw.*1.

(** ** Text codecs *)

(** A codec in strict mode: the [str] the bytes stand for, or nothing where
    Python raises [UnicodeDecodeError]. *)
Record codec : Type := Codec {
  codec_name : string;
  decode : string → option string
}.

Definition in_range (lo hi : N) (c : ascii) : bool :=
  ((lo <=? N_of_ascii c) && (N_of_ascii c <=? hi))%N.

Definition continuation : ascii → bool := in_range 128 191.

(** Second byte of a three-byte form: no overlong form, no surrogate. *)
Definition second_of_three (lead : ascii) : ascii → bool :=
  if (N_of_ascii lead =? 224)%N then in_range 160 191
  else if (N_of_ascii lead =? 237)%N then in_range 128 159
  else continuation.

(** Second byte of a four-byte form: no overlong form, nothing past
    U+10FFFF. *)
Definition second_of_four (lead : ascii) : ascii → bool :=
  if (N_of_ascii lead =? 240)%N then in_range 144 191
  else if (N_of_ascii lead =? 244)%N then in_range 128 143
  else continuation.

(** Well-formed UTF-8. *)
Fixpoint utf8_valid (s : string) : bool :=
  match s with
  | EmptyString => true
  | String b0 rest =>
      if in_range 0 127 b0 then utf8_valid rest
      else if in_range 194 223 b0 then
        match rest with
        | String b1 rest1 => continuation b1 && utf8_valid rest1
        | _ => false
        end
      else if in_range 224 239 b0 then
        match rest with
        | String b1 (String b2 rest2) =>
            second_of_three b0 b1 && continuation b2 && utf8_valid rest2
        | _ => false
        end
      else if in_range 240 244 b0 then
        match rest with
        | String b1 (String b2 (String b3 rest3)) =>
            second_of_four b0 b1 && continuation b2 && continuation b3
            && utf8_valid rest3
        | _ => false
        end
      else false
  end.

Definition utf_8 : codec :=
  {| codec_name := "utf-8";
     decode := λ b, if utf8_valid b then Some b else None |}.

(** ISO 8859-1: every byte is the code point of the same number. *)
Fixpoint latin1_to_str (b : string) : string :=
  match b with
  | EmptyString => EmptyString
  | String c rest =>
      if in_range 0 127 c then String c (latin1_to_str rest)
      else String (ascii_of_N (192 + N_of_ascii c / 64))
             (String (ascii_of_N (128 + N_of_ascii c mod 64))
                (latin1_to_str rest))
  end.

Definition latin_1 : codec :=
  {| codec_name := "iso8859-1"; decode := λ b, Some (latin1_to_str b) |}.

Definition CR : ascii := "013"%char.
Definition LF : ascii := "010"%char.

(** Text mode with the default [newline=None]: every CR LF and every other
    CR of the decoded text becomes LF. *)
Fixpoint universal_newlines (s : string) : string :=
  match s with
  | EmptyString => EmptyString
  | String c rest =>
      if decide (c = CR) then
        match rest with
        | String c' rest' =>
            if decide (c' = LF) then String LF (universal_newlines rest')
            else String LF (universal_newlines rest)
        | EmptyString => String LF EmptyString
        end
      else String c (universal_newlines rest)
  end.


(** ** The surroundings of an invocation *)

(** What following a path leads to.  A regular file carries its bytes and
    whether the invoking user may read it.  [Failing] is a path the system
    refuses to open or to read for another reason, with the error number it
    gives: a loop of links, a device error. *)
Inductive node : Type :=
| Directory
| RegularFile (readable : bool) (content : string)
| Failing (errno : Z).

Record world : Type := World {
  cwd : string;          (* current working directory, as getcwd gives it *)
  script_dir : string;   (* directory that holds setup.py *)
  encoding : codec;      (* the locale's encoding, used when none is given *)
  fs : gmap string node  (* absolute path to what it leads to, links followed *)
}.

(** Error numbers. *)
Definition ENOENT : Z := 2.
Definition EACCES : Z := 13.
Definition EISDIR : Z := 21.
Definition ELOOP : Z := 40.

(** The exceptions of a text-mode read.  Python names the class of an
    [OSError] after its error number. *)
Inductive exn : Type :=
| OSError (errno : Z) (filename : string)
| UnicodeDecodeError (encoding : string).

Definition FileNotFoundError : string → exn := OSError ENOENT.
Definition PermissionError : string → exn := OSError EACCES.
Definition IsADirectoryError : string → exn := OSError EISDIR.

Inductive result (A : Type) : Type :=
| Return (a : A)
| Raise (e : exn).
Arguments Return {A} a.
Arguments Raise {A} e.

(** Input/output operations of an invocation, in the order they happen. *)
Inductive event : Type :=
| ReadText (abspath : string)
| Setup (kw : kwargs).

Record state : Type := State {
  st_world : world;
  st_trace : list event
}.

Definition Script (A : Type) : Type := state → result A * state.

#[global] Instance Script_ret : MRet Script := λ A a s, (Return a, s).

#[global] Instance Script_bind : MBind Script := λ A B f m s,
  match m s with
  | (Return a, s') => f a s'
  | (Raise e, s') => (Raise e, s')
  end.

Definition log (e : event) (s : state) : state :=
  {| st_world := st_world s; st_trace := st_trace s ++ [e] |}.

(** ** [pathlib] *)

Inductive PurePath : Type := Path (raw : string).

Definition raw (p : PurePath) : string := let 'Path r := p in r.

Definition is_absolute (p : PurePath) : bool :=
  match raw p with
  | String "/"%char _ => true
  | _ => false
  end.

Fixpoint ends_with_slash (s : string) : bool :=
  match s with
  | EmptyString => false
  | String c EmptyString => bool_decide (c = "/"%char)
  | String _ rest => ends_with_slash rest
  end.

(** A name below a directory; the root already ends with the separator. *)
Definition joinpath (dir name : string) : string :=
  if ends_with_slash dir then dir +:+ name else dir +:+ "/" +:+ name.

(** The file a path names for a process whose working directory is [dir]. *)
Definition absolute (dir : string) (p : PurePath) : string :=
  if is_absolute p then raw p else joinpath dir (raw p).

(** Opening for reading: the bytes, or the error number. *)
Definition open_for_reading (w : world) (target : string) : Z + string :=
  match fs w !! target with
  | None => inl ENOENT
  | Some Directory => inl EISDIR
  | Some (RegularFile false _) => inl EACCES
  | Some (RegularFile true content) => inr content
  | Some (Failing errno) => inl errno
  end.

(** [Path.read_text()] with no argument: open in text mode, read
    everything, close.  The bytes are decoded with the locale's encoding,
    strictly, and newlines are translated.  An [OSError] carries the path as
    the caller wrote it. *)
Definition read_text (p : PurePath) : Script string := λ s,
  let w := st_world s in
  let target := absolute (cwd w) p in
  let s' := log (ReadText target) s in
  match open_for_reading w target with
  | inl errno => (Raise (OSError errno (raw p)), s')
  | inr content =>
      match decode (encoding w) content with
      | None => (Raise (UnicodeDecodeError (codec_name (encoding w))), s')
      | Some text => (Return (universal_newlines text), s')
      end
  end.

(** ** [setuptools] *)

(** [setup], called with keyword arguments, is the entry point of the external packaging tool: the
    call and its arguments are what the script is observed to do. *)
Definition setup (kw : kwargs) : Script unit := λ s,
  (Return tt, log (Setup kw) s).

(** ** The script *)

Definition __author__ : string := "Alex Rogozhnikov".

(** The keyword arguments of the call, given the one that is not a literal. *)
Definition metadata (long_description : string) : kwargs :=
  [ ("name", VStr "einops");
    ("version", VStr "0.7.0");
    ("description", VStr "A new flavour of deep learning operations");
    ("long_description", VStr long_description);
    ("long_description_content_type", VStr "text/markdown");
    ("url", VStr "https://github.com/arogozhnikov/einops");
    ("author", VStr "Alex Rogozhnikov");
    ("classifiers", VList
       [ "Intended Audience :: Science/Research";
         "Programming Language :: Python :: 3 ";
         "License :: OSI Approved :: MIT License" ]);
    ("keywords", VStr "deep learning, neural networks, tensor manipulation, machine learning, scientific computations, einops");
    ("install_requires", VList []) ].

Definition script : Script unit :=
  long_description ← read_text (Path "README.md");
  setup (metadata long_description).

(** One invocation in the surroundings [w]. *)
Definition run (w : world) : result unit * state :=
  script {| st_world := w; st_trace := [] |}.

Definition outcome (w : world) : result unit := (run w).1.
Definition trace (w : world) : list event := st_trace (run w).2.
Definition final (w : world) : world := st_world (run w).2.

Definition setup_calls (t : list event) : list kwargs :=
  omap (λ e, match e with Setup kw => Some kw | ReadText _ => None end) t.

Definition reads (t : list event) : list string :=
  omap (λ e, match e with ReadText a => Some a | Setup _ => None end) t.

(** The metadata record of an invocation: the arguments [setup] received. *)
Definition record (w : world) : option kwargs := head (setup_calls (trace w)).

(** ** The README as the invocation sees it *)

Definition readme_path (w : world) : string := absolute (cwd w) (Path "README.md").

Definition readme (w : world) : option node := fs w !! readme_path w.

(** The bytes of the README when it is a file the user may read. *)
Definition readme_content (w : world) : option string :=
  match readme w with
  | Some (RegularFile true content) => Some content
  | _ => None
  end.

(** The text of the README as a text-mode read in these surroundings
    delivers it, when it does. *)
Definition readme_text (w : world) : option string :=
  match readme_content w with
  | Some content =>
      match decode (encoding w) content with
      | Some text => Some (universal_newlines text)
      | None => None
      end
  | None => None
  end.





(** ** Sample surroundings *)

Definition repo_fs (n : node) : gmap string node :=
  {[ "/repo" := Directory; "/repo/README.md" := n; "/repo/scripts" := Directory ]}.

Definition at_root (n : node) : world :=
  {| cwd := "/repo"; script_dir := "/repo/scripts"; encoding := utf_8;
     fs := repo_fs n |}.

Definition elsewhere (n : node) : world :=
  {| cwd := "/tmp/build"; script_dir := "/repo/scripts"; encoding := utf_8;
     fs := {[ "/tmp/build/README.md" := n ]} |}.

(** A process started in the root directory. *)
Definition at_slash (n : node) : world :=
  {| cwd := "/"; script_dir := "/repo/scripts"; encoding := utf_8;
     fs := {[ "/README.md" := n ]} |}.

(** Two READMEs with different texts, each in its directory. *)
Definition two_readmes : world :=
  {| cwd := "/a"; script_dir := "/s"; encoding := utf_8;
     fs := {[ "/a/README.md" := RegularFile true "A";
              "/b/README.md" := RegularFile true "B" ]} |}.

(** The same surroundings with the script stored in, or the process started
    from, another directory, or under another locale. *)
Definition moved (d : string) (w : world) : world :=
  {| cwd := cwd w; script_dir := d; encoding := encoding w; fs := fs w |}.

Definition chdir (d : string) (w : world) : world :=
  {| cwd := d; script_dir := script_dir w; encoding := encoding w; fs := fs w |}.


(** File contents: two lines ended the DOS way; the two bytes of U+00E9 in
    UTF-8; the one byte of U+00E9 in ISO 8859-1. *)
Definition dos_lines : string :=
  "a" +:+ String CR (String LF ("b" +:+ String CR (String LF ""))).

Definition unix_lines : string :=
  "a" +:+ String LF ("b" +:+ String LF "").

Definition e_acute_utf8 : string := String "195" (String "169" "").

Definition e_acute_latin1 : string := String "233" "".

(** ** Vocabulary of the statements *)


Definition field_names : list string :=
  [ "name"; "version"; "description"; "long_description";
    "long_description_content_type"; "url"; "author"; "classifiers";
    "keywords"; "install_requires" ].

(** * What an invocation does *)

Example run_at_root :
  run (at_root (RegularFile true "# einops")) =
  (Return tt,
   {| st_world := at_root (RegularFile true "# einops");
      st_trace := [ReadText "/repo/README.md"; Setup (metadata "# einops")] |}).
Proof. vm_compute. reflexivity. Qed.

(** From the root directory the file is [/README.md]. *)
Example run_at_slash :
  run (at_slash (RegularFile true "# einops")) =
  (Return tt,
   {| st_world := at_slash (RegularFile true "# einops");
      st_trace := [ReadText "/README.md"; Setup (metadata "# einops")] |}).
Proof. vm_compute. reflexivity. Qed.

(** A loop of links where the README should be: a plain [OSError]. *)
Example run_link_loop :
  outcome (at_root (Failing ELOOP)) = Raise (OSError 40 "README.md")
  ∧ record (at_root (Failing ELOOP)) = None.
Proof. split; vm_compute; reflexivity. Qed.

(** A README written in ISO 8859-1 and read under a UTF-8 locale. *)
Example run_undecodable :
  outcome (at_root (RegularFile true e_acute_latin1))
  = Raise (UnicodeDecodeError "utf-8")
  ∧ record (at_root (RegularFile true e_acute_latin1)) = None.
Proof. split; vm_compute; reflexivity. Qed.

Example dos_lines_translated : universal_newlines dos_lines = unix_lines.
Proof. reflexivity. Qed.

Example latin1_e_acute : decode latin_1 e_acute_latin1 = Some e_acute_utf8.
Proof. reflexivity. Qed.



Lemma joinpath_root (name : string) : joinpath "/" name = "/" +:+ name.
Proof. reflexivity. Qed.

Lemma joinpath_below (dir name : string) :
  ends_with_slash dir = false → joinpath dir name = dir +:+ "/" +:+ name.
Proof. unfold joinpath. intros ->. reflexivity. Qed.

Section Invocation.

Variable w : world.

Lemma readme_path_eq : readme_path w = joinpath (cwd w) "README.md".
Proof. reflexivity. Qed.

(** The ways an invocation can go, by what the README is. *)
Lemma run_cases :
  run w =
  match readme w with
  | None =>
      (Raise (FileNotFoundError "README.md"),
       State w [ReadText (readme_path w)])
  | Some Directory =>
      (Raise (IsADirectoryError "README.md"),
       State w [ReadText (readme_path w)])
  | Some (RegularFile false _) =>
      (Raise (PermissionError "README.md"),
       State w [ReadText (readme_path w)])
  | Some (Failing errno) =>
      (Raise (OSError errno "README.md"),
       State w [ReadText (readme_path w)])
  | Some (RegularFile true content) =>
      match decode (encoding w) content with
      | None =>
          (Raise (UnicodeDecodeError (codec_name (encoding w))),
           State w [ReadText (readme_path w)])
      | Some text =>
          (Return tt,
           State w [ReadText (readme_path w);
                    Setup (metadata (universal_newlines text))])
      end
  end.
Proof.
  unfold run, script, mbind, Script_bind, read_text, open_for_reading,
    readme, readme_path.
  cbn [st_world st_trace].
  destruct (fs w !! absolute (cwd w) (Path "README.md"))
    as [[|[] content|errno]|]; try reflexivity.
  destruct (decode (encoding w) content); reflexivity.
Qed.

Lemma run_readable text :
  readme_text w = Some text →
  run w = (Return tt, State w [ReadText (readme_path w); Setup (metadata text)]).
Proof.
  rewrite run_cases. unfold readme_text, readme_content.
  destruct (readme w) as [[|[] content|errno]|]; try discriminate.
  destruct (decode (encoding w) content); intros [= <-]; reflexivity.
Qed.


(** A record is handed over only when the README was read, and it is the
    one built from the README's text. *)
Lemma record_inv r :
  record w = Some r → ∃ text, readme_text w = Some text ∧ r = metadata text.
Proof.
  unfold record, trace, readme_text, readme_content. rewrite run_cases.
  destruct (readme w) as [[|[] content|errno]|]; try discriminate.
  destruct (decode (encoding w) content); cbn; intros [= <-]; eauto.
Qed.

(** Without the README's text the read's exception ends the run, after the
    read alone. *)
Lemma run_unreadable :
  readme_text w = None →
  ∃ e, run w = (Raise e, State w [ReadText (readme_path w)]).
Proof.
  rewrite run_cases. unfold readme_text, readme_content.
  destruct (readme w) as [[|[] content|errno]|]; eauto.
  destruct (decode (encoding w) content); [discriminate | eauto].
Qed.

Lemma outcome_ok_iff : outcome w = Return tt ↔ is_Some (readme_text w).
Proof.
  unfold outcome. destruct (readme_text w) as [text|] eqn:E.
  - rewrite (run_readable _ E). split; eauto.
  - destruct (run_unreadable E) as [e ->]. split; [discriminate|].
    intros [? [=]].
Qed.

Lemma reads_readme : reads (trace w) = [readme_path w].
Proof.
  unfold trace. destruct (readme_text w) as [text|] eqn:E.
  - rewrite (run_readable _ E). reflexivity.
  - destruct (run_unreadable E) as [e ->]. reflexivity.
Qed.

Lemma outcome_ok_record : outcome w = Return tt ↔ is_Some (record w).
Proof.
  unfold outcome, record, trace. destruct (readme_text w) as [text|] eqn:E.
  - rewrite (run_readable _ E). cbn. split; eauto.
  - destruct (run_unreadable E) as [e ->]. cbn. split; [discriminate|].
    intros [? [=]].
Qed.


Lemma final_unchanged : final w = w.
Proof.
  unfold final. destruct (readme_text w) as [text|] eqn:E.
  - rewrite (run_readable _ E). reflexivity.
  - destruct (run_unreadable E) as [e ->]. reflexivity.
Qed.

End Invocation.


Lemma kwarg_is_Some (k : string) (kw : kwargs) :
  is_Some (kwarg k kw) ↔ k ∈ fields kw.
Proof.
  unfold fields. induction kw as [|[k' v] rest IH]; cbn.
  - split; [intros [? [=]] | intros H; inversion H].
  - destruct (decide (k = k')) as [->|Hne].
    + split; [intros _; left | eauto].
    + rewrite IH. split; [intros H; right; exact H|].
      intros H. inversion H; subst; [contradiction | assumption].
Qed.

(** * The metadata record *)




(** C2: the [install_requires] of every record handed over is the empty
    list. *)
Theorem install_requires_empty (w : world) (r : kwargs) :
  record w = Some r → kwarg "install_requires" r = Some (VList []).
Proof.
  intros H. destruct (record_inv w r H) as (text & _ & ->). reflexivity.
Qed.

Lemma install_requires_empty_witness :
  record (at_root (RegularFile true "# einops")) = Some (metadata "# einops") ∧
  kwarg "install_requires" (metadata "# einops") = Some (VList []).
Proof.
  split.
  - vm_compute. reflexivity.
  - apply (install_requires_empty (at_root (RegularFile true "# einops"))).
    vm_compute. reflexivity.
Defined.




(** * Failure *)



(** * The fields *)

Lemma metadata_author (text : string) :
  kwarg "author" (metadata text) = Some (VStr __author__).
Proof. reflexivity. Qed.

Lemma metadata_fields (text : string) : fields (metadata text) = field_names.
Proof. reflexivity. Qed.

(** C5: a record handed over sets the ten fields [name], [version],
    [description], [long_description], [long_description_content_type],
    [url], [author], [classifiers], [keywords] and [install_requires], each
    once, and nothing else; [classifiers] is a list of strings. *)
Theorem record_fields (w : world) (r : kwargs) :
  record w = Some r →
  fields r = field_names ∧
  NoDup (fields r) ∧
  (∀ k, is_Some (kwarg k r) ↔ k ∈ field_names) ∧
  (∃ items, kwarg "classifiers" r = Some (VList items)).
Proof.
  intros H. destruct (record_inv w r H) as (text & _ & ->).
  repeat split.
  - rewrite metadata_fields. compute_done.
  - rewrite <- (metadata_fields text). apply kwarg_is_Some.
  - rewrite <- (metadata_fields text). apply kwarg_is_Some.
  - eexists. reflexivity.
Qed.

Lemma record_fields_witness :
  record (at_root (RegularFile true "# einops")) = Some (metadata "# einops") ∧
  fields (metadata "# einops") = field_names.
Proof.
  split.
  - vm_compute. reflexivity.
  - apply (record_fields (at_root (RegularFile true "# einops"))).
    vm_compute. reflexivity.
Defined.

(** The [keywords] of a record is one string, not a list: "the keywords
    field is a list of keyword strings" fails on a run that succeeds. *)
Lemma keywords_is_not_a_list :
  record (at_root (RegularFile true "# einops")) = Some (metadata "# einops") ∧
  ¬ ∃ items, kwarg "keywords" (metadata "# einops") = Some (VList items).
Proof.
  split.
  - vm_compute. reflexivity.
  - intros [items E]. vm_compute in E. discriminate E.
Qed.

(** C6, amended: the [keywords] of every record handed over is a single
    string, the six keywords joined by a comma and a space. *)
Theorem keywords_is_one_string (w : world) (r : kwargs) :
  record w = Some r →
  kwarg "keywords" r =
  Some (VStr (String.concat ", "
                [ "deep learning"; "neural networks"; "tensor manipulation";
                  "machine learning"; "scientific computations"; "einops" ])).
Proof.
  intros H. destruct (record_inv w r H) as (text & _ & ->). reflexivity.
Qed.

Lemma keywords_is_one_string_witness :
  record (at_root (RegularFile true "# einops")) = Some (metadata "# einops") ∧
  kwarg "keywords" (metadata "# einops") =
  Some (VStr "deep learning, neural networks, tensor manipulation, machine learning, scientific computations, einops").
Proof.
  split.
  - vm_compute. reflexivity.
  - apply (keywords_is_one_string (at_root (RegularFile true "# einops"))).
    vm_compute. reflexivity.
Defined.

(** C10: the [classifiers] of every record handed over is the list of three
    strings of the script, in its order; the second one ends with a space. *)
Theorem classifiers_exact (w : world) (r : kwargs) :
  record w = Some r →
  ∃ second,
    kwarg "classifiers" r =
    Some (VList [ "Intended Audience :: Science/Research";
                  second;
                  "License :: OSI Approved :: MIT License" ]) ∧
    second = "Programming Language :: Python :: 3 " ∧
    String.get (String.length second - 1) second = Some " "%char.
Proof.
  intros H. destruct (record_inv w r H) as (text & _ & ->).
  eexists. split; [reflexivity|]. split; reflexivity.
Qed.

Lemma classifiers_exact_witness :
  record (at_root (RegularFile true "# einops")) = Some (metadata "# einops") ∧
  ∃ second,
    kwarg "classifiers" (metadata "# einops") =
    Some (VList [ "Intended Audience :: Science/Research";
                  second;
                  "License :: OSI Approved :: MIT License" ]) ∧
    second = "Programming Language :: Python :: 3 " ∧
    String.get (String.length second - 1) second = Some " "%char.
Proof.
  split.
  - vm_compute. reflexivity.
  - apply (classifiers_exact (at_root (RegularFile true "# einops"))).
    vm_compute. reflexivity.
Defined.

(** * Effects *)

(** C7: an invocation that hands over a record calls [setup] once, as the
    last thing it does, with the record as it was built from the README's
    text; the file system and the working directory are as they were. *)
Theorem record_handed_once_unchanged (w : world) (r : kwargs) :
  record w = Some r →
  setup_calls (trace w) = [r] ∧
  last (trace w) = Some (Setup r) ∧
  (∃ text, readme_text w = Some text ∧ r = metadata text) ∧
  final w = w.
Proof.
  intros H. destruct (record_inv w r H) as (text & Htext & ->).
  unfold trace. rewrite (run_readable w text Htext). cbn.
  repeat split; eauto using final_unchanged.
Qed.

Lemma record_handed_once_unchanged_witness :
  record (at_root (RegularFile true "# einops")) = Some (metadata "# einops") ∧
  setup_calls (trace (at_root (RegularFile true "# einops")))
  = [metadata "# einops"].
Proof.
  split.
  - vm_compute. reflexivity.
  - apply (record_handed_once_unchanged (at_root (RegularFile true "# einops"))).
    vm_compute. reflexivity.
Defined.

(** C8: every invocation reads one file, the README, first; it then either
    stops on the read's error or calls [setup], and does nothing else; the
    file system and the working directory are as they were. *)
Theorem one_read_nothing_else (w : world) :
  reads (trace w) = [readme_path w] ∧
  (trace w = [ReadText (readme_path w)] ∨
   ∃ text, readme_text w = Some text ∧
           trace w = [ReadText (readme_path w); Setup (metadata text)]) ∧
  final w = w.
Proof.
  split; [|split; [|apply final_unchanged]].
  - apply reads_readme.
  - unfold trace. destruct (readme_text w) as [text|] eqn:E.
    + rewrite (run_readable w text E). eauto.
    + destruct (run_unreadable w E) as [e ->]. left. reflexivity.
Qed.

(** * The working directory *)

(** C9: the file read is [README.md] in the working directory; where the
    script is stored changes nothing, while the working directory decides
    whether the script succeeds and what [long_description] is. *)
Theorem readme_follows_cwd :
  (∀ w, reads (trace w) = [joinpath (cwd w) "README.md"]) ∧
  (∀ w, cwd w = "/" → reads (trace w) = ["/README.md"]) ∧
  (∀ w, ends_with_slash (cwd w) = false →
        reads (trace w) = [cwd w +:+ "/README.md"]) ∧
  (∀ w d, outcome (moved d w) = outcome w
          ∧ trace (moved d w) = trace w
          ∧ record (moved d w) = record w) ∧
  (∃ w d, outcome w = Return tt
          ∧ outcome (chdir d w) = Raise (FileNotFoundError "README.md")) ∧
  (∃ w d r1 r2,
     record w = Some r1 ∧ record (chdir d w) = Some r2
     ∧ kwarg "long_description" r1 = Some (VStr "A")
     ∧ kwarg "long_description" r2 = Some (VStr "B")
     ∧ kwarg "long_description" r1 ≠ kwarg "long_description" r2).
Proof.
  split; [|split; [|split; [|split; [|split]]]].
  - intros w. apply reads_readme.
  - intros w Hroot. rewrite reads_readme, readme_path_eq, Hroot. reflexivity.
  - intros w Hdir.
    rewrite reads_readme, readme_path_eq, (joinpath_below _ _ Hdir).
    reflexivity.
  - intros w d. unfold outcome, record, trace.
    rewrite !run_cases. unfold readme, readme_path. cbn [moved cwd fs encoding].
    destruct (fs w !! absolute (cwd w) (Path "README.md"))
      as [[|[] content|errno]|]; try (repeat split; reflexivity).
    destruct (decode (encoding w) content); repeat split; reflexivity.
  - exists (at_root (RegularFile true "# einops")), "/repo/scripts".
    split; vm_compute; reflexivity.
  - exists two_readmes, "/b", (metadata "A"), (metadata "B").
    split; [vm_compute; reflexivity|]. split; [vm_compute; reflexivity|].
    split; [reflexivity|]. split; [reflexivity|]. discriminate.
Qed.

(** * Beyond the README *)

(** X1: two records handed over by any two invocations agree on every field
    but [long_description]: nothing else depends on the surroundings. *)
Theorem only_long_description_varies (w1 w2 : world) (r1 r2 : kwargs) (k : string) :
  record w1 = Some r1 → record w2 = Some r2 →
  k ≠ "long_description" →
  kwarg k r1 = kwarg k r2.
Proof.
  intros H1 H2 Hk.
  destruct (record_inv w1 r1 H1) as (t1 & _ & ->).
  destruct (record_inv w2 r2 H2) as (t2 & _ & ->).
  unfold metadata. cbn [kwarg].
  repeat (case_decide; [reflexivity|]).
  case_decide; [contradiction|].
  repeat (case_decide; [reflexivity|]). reflexivity.
Qed.

Lemma only_long_description_varies_witness :
  record (at_root (RegularFile true "# einops")) = Some (metadata "# einops") ∧
  record (elsewhere (RegularFile true "other")) = Some (metadata "other") ∧
  "version" ≠ "long_description" ∧
  kwarg "version" (metadata "# einops") = kwarg "version" (metadata "other").
Proof.
  split; [vm_compute; reflexivity|]. split; [vm_compute; reflexivity|].
  split; [discriminate|].
  apply (only_long_description_varies
           (at_root (RegularFile true "# einops"))
           (elsewhere (RegularFile true "other"))).
  - vm_compute. reflexivity.
  - vm_compute. reflexivity.
  - discriminate.
Defined.

(** X2: the [author] of every record handed over is the module's
    [__author__]. *)
Theorem author_is_module_author (w : world) (r : kwargs) :
  record w = Some r → kwarg "author" r = Some (VStr __author__).
Proof.
  intros H. destruct (record_inv w r H) as (text & _ & ->).
  apply metadata_author.
Qed.

Lemma author_is_module_author_witness :
  record (at_root (RegularFile true "# einops")) = Some (metadata "# einops") ∧
  kwarg "author" (metadata "# einops") = Some (VStr "Alex Rogozhnikov").
Proof.
  split.
  - vm_compute. reflexivity.
  - apply (author_is_module_author (at_root (RegularFile true "# einops"))).
    vm_compute. reflexivity.
Defined.

(** X3: the record determines the README: two invocations that hand over
    the same record both read the same text. *)
Theorem same_record_same_readme (w1 w2 : world) (r : kwargs) :
  record w1 = Some r → record w2 = Some r →
  ∃ text, readme_text w1 = Some text ∧ readme_text w2 = Some text.
Proof.
  intros H1 H2.
  destruct (record_inv w1 r H1) as (t1 & Ht1 & ->).
  destruct (record_inv w2 _ H2) as (t2 & Ht2 & E).
  injection E as ->. eauto.
Qed.

Lemma same_record_same_readme_witness :
  record (at_root (RegularFile true "# einops")) = Some (metadata "# einops") ∧
  record (elsewhere (RegularFile true "# einops")) = Some (metadata "# einops") ∧
  ∃ text, readme_text (at_root (RegularFile true "# einops")) = Some text
          ∧ readme_text (elsewhere (RegularFile true "# einops")) = Some text.
Proof.
  split; [vm_compute; reflexivity|]. split; [vm_compute; reflexivity|].
  apply (same_record_same_readme
           (at_root (RegularFile true "# einops"))
           (elsewhere (RegularFile true "# einops"))
           (metadata "# einops"));
    vm_compute; reflexivity.
Defined.

(** X5: every record handed over names the project [einops], version
    [0.7.0], with the script's description, home page and the markdown
    content type for [long_description]. *)
Theorem fixed_scalar_fields (w : world) (r : kwargs) :
  record w = Some r →
  kwarg "name" r = Some (VStr "einops") ∧
  kwarg "version" r = Some (VStr "0.7.0") ∧
  kwarg "description" r = Some (VStr "A new flavour of deep learning operations") ∧
  kwarg "long_description_content_type" r = Some (VStr "text/markdown") ∧
  kwarg "url" r = Some (VStr "https://github.com/arogozhnikov/einops").
Proof.
  intros H. destruct (record_inv w r H) as (text & _ & ->).
  repeat split.
Qed.

Lemma fixed_scalar_fields_witness :
  record (at_root (RegularFile true "# einops")) = Some (metadata "# einops") ∧
  kwarg "name" (metadata "# einops") = Some (VStr "einops").
Proof.
  split.
  - vm_compute. reflexivity.
  - apply (fixed_scalar_fields (at_root (RegularFile true "# einops"))).
    vm_compute. reflexivity.
Defined.
